(** * Doris connection builder and Trino sampler: a shallow embedding

    Two leaf components of the ingestion framework are embedded here:

    - [Doris]: [get_connection] of
      [metadata/ingestion/source/database/doris/connection.py], which merges
      the TLS material of a connection descriptor into its connection
      arguments and then delegates to the generic engine builder;
    - [Trino]: [TrinoSampler] of
      [metadata/profiler/processor/sampler/sqlalchemy/trino/sampler.py],
      which patches the Trino dialect on construction and builds the base
      sampling query with a NaN filter over the float columns.

    Python dictionaries are finite maps ([gmap string _]), attribute
    assignment on the descriptor is explicit state passing, and a raised
    exception is the [Raise] branch of [PyResult]. *)

From stdpp Require Import gmap strings list fin_maps.

Set Warnings "-register-all,-clear-no-such-hyp".

(** ** Python preliminaries shared by both components *)

(** Exceptions: the one raised by item assignment on a value that does not
    support it, and any other, by class name. *)
Inductive PyError :=
| TypeError
| OtherError (class_name : string).

Inductive PyResult (A : Type) :=
| Ok (a : A)
| Raise (e : PyError).
Arguments Ok {A} a.
Arguments Raise {A} e.

(** An [Optional[str]] attribute is truthy when it is neither [None] nor the
    empty string. *)
Definition truthy (field : option string) : bool :=
  match field with
  | Some s => negb (String.eqb s "")
  | None => false
  end.

Module Doris.

(** Values of the free-form [Dict[str, Any]] of connection arguments. *)
Inductive PyValue :=
| PyNone
| PyBool (b : bool)
| PyInt (n : Z)
| PyStr (s : string)
| PyDict (d : gmap string PyValue).

(** [connection.ssl.__root__]: the three optional TLS fields.  The source
    dereferences [connection.ssl.__root__] without a guard, so the bundle
    itself is always an object. *)
Record SslConfig := {
  caCertificate : option string;
  sslCertificate : option string;
  sslKey : option string
}.

Record DorisConnection := {
  username : string;
  hostPort : string;
  ssl : SslConfig;
  connectionArguments : option (gmap string PyValue)
}.

(** [connection.connectionArguments = args] *)
Definition set_connectionArguments (connection : DorisConnection)
    (args : gmap string PyValue) : DorisConnection :=
  {| username := username connection;
     hostPort := hostPort connection;
     ssl := ssl connection;
     connectionArguments := Some args |}.

(** Modelled from the spec: [init_empty_connection_arguments] of
    [metadata.ingestion.connections.builders] is not among the sources; the
    spec gives it as returning a fresh empty map. *)
Definition init_empty_connection_arguments : gmap string PyValue := ∅.

(** [x or y] on an optional dictionary: [None] and the empty dictionary are
    falsy. *)
Definition py_or (x : option (gmap string PyValue)) (y : gmap string PyValue)
    : gmap string PyValue :=
  match x with
  | Some m => if bool_decide (m = ∅) then y else m
  | None => y
  end.

(** [d.get(key, default)] *)
Definition dict_get (d : gmap string PyValue) (key : string) (default : PyValue)
    : PyValue :=
  match d !! key with
  | Some v => v
  | None => default
  end.

(** [if field: ssl_args[key] = field], on a value that is a dictionary. *)
Definition set_if_truthy (key : string) (field : option string)
    (ssl_args : gmap string PyValue) : gmap string PyValue :=
  match field with
  | Some s => if truthy field then <[key := PyStr s]> ssl_args else ssl_args
  | None => ssl_args
  end.

(** Lines 41-56 of [get_connection]: the TLS merge.  The descriptor is
    mutated in place, so the step returns the descriptor as it is left
    together with the outcome.  Item assignment on a value that is not a
    dictionary raises [TypeError]; inside the guarded block at least one of
    the three assignments is executed. *)
Definition merge_ssl (connection : DorisConnection)
    : DorisConnection * PyResult unit :=
  let root := ssl connection in
  if truthy (caCertificate root)
     || truthy (sslCertificate root)
     || truthy (sslKey root)
  then
    let args :=
      py_or (connectionArguments connection) init_empty_connection_arguments in
    let connection := set_connectionArguments connection args in
    match dict_get args "ssl" (PyDict ∅) with
    | PyDict ssl_args =>
        let ssl_args := set_if_truthy "ssl_ca" (caCertificate root) ssl_args in
        let ssl_args := set_if_truthy "ssl_cert" (sslCertificate root) ssl_args in
        let ssl_args := set_if_truthy "ssl_key" (sslKey root) ssl_args in
        (set_connectionArguments connection (<["ssl" := PyDict ssl_args]> args),
         Ok tt)
    | _ => (connection, Raise TypeError)
    end
  else (connection, Ok tt).

Section GetConnection.

(** The generic builder and the two common builder functions live in
    [metadata.ingestion.connections.builders]; they are taken as given. *)
Context {Engine ConnectionURL ConnectionArgs : Type}.
Variable get_connection_url_common : DorisConnection -> ConnectionURL.
Variable get_connection_args_common : DorisConnection -> ConnectionArgs.
Variable create_generic_db_connection :
  DorisConnection ->
  (DorisConnection -> ConnectionURL) ->
  (DorisConnection -> ConnectionArgs) ->
  PyResult Engine.

Definition get_connection (connection : DorisConnection)
    : DorisConnection * PyResult Engine :=
  match merge_ssl connection with
  | (connection, Ok _) =>
      (connection,
       create_generic_db_connection connection
         get_connection_url_common get_connection_args_common)
  | (connection, Raise e) => (connection, Raise e)
  end.

End GetConnection.

(** *** Vocabulary of the statements *)

Definition tls_present (connection : DorisConnection) : bool :=
  truthy (caCertificate (ssl connection))
  || truthy (sslCertificate (ssl connection))
  || truthy (sslKey (ssl connection)).

(** The connection arguments as supplied, an absent map read as empty. *)
Definition args_before (connection : DorisConnection) : gmap string PyValue :=
  match connectionArguments connection with
  | Some m => m
  | None => ∅
  end.

(** The ["ssl"] sub-map as supplied, an absent one read as empty. *)
Definition ssl_before (connection : DorisConnection) : gmap string PyValue :=
  match args_before connection !! "ssl" with
  | Some (PyDict d) => d
  | _ => ∅
  end.

(** The ["ssl"] sub-map of a descriptor, when it has one. *)
Definition ssl_map (connection : DorisConnection)
    : option (gmap string PyValue) :=
  match connectionArguments connection with
  | Some m =>
      match m !! "ssl" with
      | Some (PyDict d) => Some d
      | _ => None
      end
  | None => None
  end.

(** The entry under ["ssl"], if there is one, is a dictionary. *)
Definition ssl_entry_is_dict (connection : DorisConnection) : bool :=
  match args_before connection !! "ssl" with
  | Some (PyDict _) | None => true
  | Some _ => false
  end.

(** The keys of the TLS fields that are present. *)
Definition present_tls_keys (connection : DorisConnection) : gset string :=
  (if truthy (caCertificate (ssl connection)) then {["ssl_ca"]} else ∅)
  ∪ (if truthy (sslCertificate (ssl connection)) then {["ssl_cert"]} else ∅)
  ∪ (if truthy (sslKey (ssl connection)) then {["ssl_key"]} else ∅).

(** The sub-map the merge writes back. *)
Definition merged_ssl (connection : DorisConnection) : gmap string PyValue :=
  set_if_truthy "ssl_key" (sslKey (ssl connection))
    (set_if_truthy "ssl_cert" (sslCertificate (ssl connection))
       (set_if_truthy "ssl_ca" (caCertificate (ssl connection))
          (ssl_before connection))).

(** The entries the merge writes: one per TLS field that is present. *)
Definition tls_entries (connection : DorisConnection) : gmap string PyValue :=
  set_if_truthy "ssl_key" (sslKey (ssl connection))
    (set_if_truthy "ssl_cert" (sslCertificate (ssl connection))
       (set_if_truthy "ssl_ca" (caCertificate (ssl connection)) ∅)).

(** *** Sample descriptors *)

Definition only_ca : DorisConnection :=
  {| username := "ingest";
     hostPort := "doris:9030";
     ssl := {| caCertificate := Some "/certs/ca.pem";
               sslCertificate := None;
               sslKey := Some "" |};
     connectionArguments := None |}.

Definition all_three : DorisConnection :=
  {| username := "ingest";
     hostPort := "doris:9030";
     ssl := {| caCertificate := Some "/certs/ca.pem";
               sslCertificate := Some "/certs/client.pem";
               sslKey := Some "/certs/client.key" |};
     connectionArguments :=
       Some (<["charset" := PyStr "utf8"]>
               (<["connect_timeout" := PyInt 10]> ∅)) |}.

Definition ca_over_existing_ssl : DorisConnection :=
  {| username := "ingest";
     hostPort := "doris:9030";
     ssl := {| caCertificate := Some "/certs/ca.pem";
               sslCertificate := None;
               sslKey := None |};
     connectionArguments :=
       Some (<["ssl" := PyDict (<["check_hostname" := PyBool false]> ∅)]> ∅) |}.

Definition ssl_flag_not_a_dict : DorisConnection :=
  {| username := "ingest";
     hostPort := "doris:9030";
     ssl := {| caCertificate := Some "/certs/ca.pem";
               sslCertificate := None;
               sslKey := None |};
     connectionArguments := Some (<["ssl" := PyBool true]> ∅) |}.

Definition no_tls : DorisConnection :=
  {| username := "ingest";
     hostPort := "doris:9030";
     ssl := {| caCertificate := None;
               sslCertificate := Some "";
               sslKey := None |};
     connectionArguments := None |}.

(** *** Descriptors derived from a descriptor *)

(** A TLS field with the empty string read as absent. *)
Definition drop_empty (field : option string) : option string :=
  if truthy field then field else None.

(** The descriptor with every empty-string TLS field made absent. *)
Definition without_empty_fields (connection : DorisConnection)
    : DorisConnection :=
  {| username := username connection;
     hostPort := hostPort connection;
     ssl := {| caCertificate := drop_empty (caCertificate (ssl connection));
               sslCertificate := drop_empty (sslCertificate (ssl connection));
               sslKey := drop_empty (sslKey (ssl connection)) |};
     connectionArguments := connectionArguments connection |}.

(** The descriptor with no connection arguments at all. *)
Definition without_arguments (connection : DorisConnection)
    : DorisConnection :=
  {| username := username connection;
     hostPort := hostPort connection;
     ssl := ssl connection;
     connectionArguments := None |}.

Definition all_three_ssl_required : DorisConnection :=
  {| username := "ingest";
     hostPort := "doris:9030";
     ssl := {| caCertificate := Some "/certs/ca.pem";
               sslCertificate := Some "/certs/client.pem";
               sslKey := Some "/certs/client.key" |};
     connectionArguments :=
       Some (<["ssl" := PyStr "required"]>
               (<["charset" := PyStr "utf8"]> ∅)) |}.

Definition cert_with_empty_arguments : DorisConnection :=
  {| username := "ingest";
     hostPort := "doris:9030";
     ssl := {| caCertificate := None;
               sslCertificate := Some "/certs/client.pem";
               sslKey := Some "/certs/client.key" |};
     connectionArguments := Some ∅ |}.

End Doris.

Module Trino.

(** *** SQLAlchemy objects the sampler handles *)

(** The class of a column's type object, by name; [FLOAT_SET] is a set of
    such classes. *)
Abbreviation SqlType := string (only parsing).

Record Column := {
  name : string;
  type : SqlType
}.

(** A mapped table; [columns] is [inspect(table).c], in declaration order. *)
Record Table := {
  table_name : string;
  columns : list Column
}.

Inductive Entity :=
| TableEntity (t : Table)
| ColumnEntity (col : Column).

(** A labelled expression handed over as second entity. *)
Abbreviation Label := string (only parsing).

Inductive BooleanOperator := and_op | or_op.

Inductive ClauseElement :=
| TextClause (sql : string)
| BooleanClauseList (operator : BooleanOperator) (clauses : list ClauseElement).

(** [text(sql)] *)
Definition text (sql : string) : ClauseElement := TextClause sql.

(** [or_] applied to a list of clauses, as SQLAlchemy constructs it: one
    clause is returned as it is, the operator being discarded; any other
    number of clauses, zero included, makes a clause list. *)
Definition or_ (clauses : list ClauseElement) : ClauseElement :=
  match clauses with
  | [clause] => clause
  | _ => BooleanClauseList or_op clauses
  end.

Record Query := {
  entity_of : Entity;
  label_of : option Label;
  _where_criteria : list ClauseElement
}.

(** [session.query(entity, label)]: the query over what was asked for, with
    no criteria yet.  What the session itself makes of its arguments is
    SQLAlchemy's business and is not described here. *)
Definition Session_query (entity : Entity) (label : option Label) : Query :=
  {| entity_of := entity; label_of := label; _where_criteria := [] |}.

(** [query.where(criterion)] appends to the criteria of the query. *)
Definition Query_where (q : Query) (criterion : ClauseElement) : Query :=
  {| entity_of := entity_of q;
     label_of := label_of q;
     _where_criteria := _where_criteria q ++ [criterion] |}.

(** The sampler instance: [self.table]; [self.client] is the session whose
    [query] is [Session_query]. *)
Record TrinoSampler := {
  table : Table
}.

(** [f"is_nan({name}) = False"] *)
Definition is_nan_false (column_name : string) : string :=
  "is_nan(" +:+ column_name +:+ ") = False".

Section Sampler.

(** Constants of [metadata.profiler.processor.handle_partition] and
    [metadata.profiler.orm.registry], taken as given. *)
Variable RANDOM_LABEL : string.
Variable FLOAT_SET : gset SqlType.

Definition _base_sample_query (self : TrinoSampler)
    (column : option Column) (label : option Label) : Query :=
  let sqa_columns :=
    filter (λ col, name col ≠ RANDOM_LABEL) (columns (table self)) in
  let entity :=
    match column with
    | None => TableEntity (table self)
    | Some col => ColumnEntity col
    end in
  Query_where (Session_query entity label)
    (or_ ((λ cols, text (is_nan_false (name cols)))
            <$> filter (λ cols, type cols ∈ FLOAT_SET) sqa_columns)).

End Sampler.

(** The columns the NaN filter is about: those that are not the random-label
    column and whose type is a float type, in declaration order. *)
Definition float_columns (RANDOM_LABEL : string) (FLOAT_SET : gset SqlType)
    (t : Table) : list Column :=
  filter (λ col, name col ≠ RANDOM_LABEL ∧ type col ∈ FLOAT_SET) (columns t).

(** The per-column predicates over a list of columns. *)
Definition nan_clauses (cols : list Column) : list ClauseElement :=
  (λ cols, text (is_nan_false (name cols))) <$> cols.

(** *** Construction and the dialect patch *)

Section Init.

Context {JsonDeserializer SamplerArgs Env : Type}.

(** Process-wide state: the class attribute [TrinoDialect._json_deserializer]
    and everything else a constructor may touch. *)
Record Process := {
  TrinoDialect_json_deserializer : option JsonDeserializer;
  env : Env
}.

(** [SQASampler.__init__], the base initializer, taken as given. *)
Variable SQASampler__init__ : SamplerArgs -> Process -> TrinoSampler * Process.

(** [TrinoDialect._json_deserializer = value] *)
Definition set_json_deserializer (value : option JsonDeserializer)
    (p : Process) : Process :=
  {| TrinoDialect_json_deserializer := value; env := env p |}.

Definition TrinoSampler__init__ (args : SamplerArgs) (p : Process)
    : TrinoSampler * Process :=
  let p := set_json_deserializer None p in
  SQASampler__init__ args p.

(** Constructing one sampler after another, the process state threaded
    through. *)
Fixpoint construct_all (argss : list SamplerArgs) (p : Process) : Process :=
  match argss with
  | [] => p
  | args :: argss => construct_all argss (TrinoSampler__init__ args p).2
  end.

End Init.

Arguments Process : clear implicits.

(** *** What the criteria of a query mean

    The criteria are SQL handed to the engine.  SQLAlchemy's compiler joins
    the elements of a clause list that render to something and leaves out
    those that render to the empty string, so a clause list without
    elements generates nothing, and a statement whose criteria all generate
    nothing carries no WHERE clause. *)

Fixpoint renders_nothing (clause : ClauseElement) : bool :=
  match clause with
  | TextClause sql => bool_decide (sql = "")
  | BooleanClauseList _ clauses => forallb renders_nothing clauses
  end.

Definition has_where_clause (q : Query) : bool :=
  negb (forallb renders_nothing (_where_criteria q)).

(** The SQL fragments a clause is made of, left to right. *)
Fixpoint clause_texts (clause : ClauseElement) : list string :=
  match clause with
  | TextClause sql => [sql]
  | BooleanClauseList _ clauses => flat_map clause_texts clauses
  end.

Definition query_texts (q : Query) : list string :=
  flat_map clause_texts (_where_criteria q).

(** A cell of a row: NaN, or some other number. *)
Inductive Cell := NaN | Finite (x : Z).

Fixpoint strip_prefix (p s : list Ascii.ascii) : option (list Ascii.ascii) :=
  match p, s with
  | [], _ => Some s
  | a :: p, b :: s => if Ascii.eqb a b then strip_prefix p s else None
  | _ :: _, [] => None
  end.

Definition strip_suffix (p s : list Ascii.ascii) : option (list Ascii.ascii) :=
  reverse <$> strip_prefix (reverse p) (reverse s).

(** Reads a fragment of the shape [is_nan(<column>) = False] back. *)
Definition column_of_is_nan_false (sql : string) : option string :=
  match strip_prefix (String.list_ascii_of_string "is_nan(")
          (String.list_ascii_of_string sql) with
  | Some rest =>
      String.string_of_list_ascii
        <$> strip_suffix (String.list_ascii_of_string ") = False") rest
  | None => None
  end.

(** [is_nan(column) = False] holds of a row when the cell of the column is
    not NaN; no other fragment is given a meaning. *)
Definition eval_text (row : gmap string Cell) (sql : string) : bool :=
  match column_of_is_nan_false sql with
  | Some column_name =>
      match row !! column_name with
      | Some (Finite _) => true
      | Some NaN | None => false
      end
  | None => false
  end.

Definition connective (operator : BooleanOperator) (x y : option bool)
    : option bool :=
  match x, y with
  | Some a, Some b =>
      Some (match operator with and_op => a && b | or_op => a || b end)
  | Some a, None => Some a
  | None, _ => y
  end.

(** The truth value of a clause on a row; [None] for a clause that
    generates nothing. *)
Fixpoint eval_clause (row : gmap string Cell) (clause : ClauseElement)
    : option bool :=
  match clause with
  | TextClause sql =>
      if bool_decide (sql = "") then None else Some (eval_text row sql)
  | BooleanClauseList operator clauses =>
      fold_right (λ clause acc, connective operator (eval_clause row clause) acc)
        None clauses
  end.

(** A row is kept when no criterion is false of it. *)
Definition row_passes (q : Query) (row : gmap string Cell) : bool :=
  forallb (λ clause, default true (eval_clause row clause)) (_where_criteria q).

(** *** Sample tables *)

Definition prices : Table :=
  {| table_name := "prices";
     columns := [ {| name := "sku"; type := "VARCHAR" |};
                  {| name := "price"; type := "DOUBLE" |} ] |}.

Definition measurements : Table :=
  {| table_name := "measurements";
     columns := [ {| name := "a"; type := "FLOAT" |};
                  {| name := "random"; type := "FLOAT" |};
                  {| name := "b"; type := "DOUBLE" |} ] |}.

Definition customers : Table :=
  {| table_name := "customers";
     columns := [ {| name := "id"; type := "INTEGER" |};
                  {| name := "email"; type := "VARCHAR" |};
                  {| name := "random"; type := "FLOAT" |} ] |}.

(** A base initializer that only stores the table, and a process in which
    the dialect still has its default hook. *)
Definition store_table (t : Table) (p : Process string unit)
    : TrinoSampler * Process string unit :=
  ({| table := t |}, p).

Definition fresh_process : Process string unit :=
  {| TrinoDialect_json_deserializer := Some "json.loads"; env := tt |}.


Definition measurements_plain : Table :=
  {| table_name := "measurements";
     columns := [ {| name := "a"; type := "FLOAT" |};
                  {| name := "b"; type := "DOUBLE" |} ] |}.

End Trino.

(** * Properties of the Doris connection builder *)

Module DorisFacts.
Import Doris.

(** ** The merge on the sample descriptors *)

Example merge_ssl_only_ca :
  merge_ssl only_ca
  = (set_connectionArguments only_ca
       (<["ssl" := PyDict (<["ssl_ca" := PyStr "/certs/ca.pem"]> ∅)]> ∅),
     Ok tt).
Proof. reflexivity. Qed.

Example merge_ssl_ca_over_existing_ssl :
  ssl_map (merge_ssl ca_over_existing_ssl).1
  = Some (<["ssl_ca" := PyStr "/certs/ca.pem"]>
            (<["check_hostname" := PyBool false]> ∅)).
Proof. reflexivity. Qed.

Example merge_ssl_flag_not_a_dict :
  merge_ssl ssl_flag_not_a_dict = (ssl_flag_not_a_dict, Raise TypeError).
Proof. reflexivity. Qed.

Example merge_ssl_no_tls : merge_ssl no_tls = (no_tls, Ok tt).
Proof. reflexivity. Qed.

(** ** Lookups in the merged sub-map *)

Lemma py_or_init_empty x :
  py_or x init_empty_connection_arguments
  = match x with Some m => m | None => ∅ end.
Proof.
  destruct x as [m|]; simpl; [|done].
  case_bool_decide; by subst.
Qed.

Lemma set_if_truthy_lookup key field d :
  set_if_truthy key field d !! key
  = if truthy field then PyStr <$> field else d !! key.
Proof.
  unfold set_if_truthy. destruct field as [s|]; [|done].
  destruct (truthy (Some s)); [|done]. by rewrite lookup_insert_eq.
Qed.

Lemma set_if_truthy_lookup_ne key field d k :
  key ≠ k → set_if_truthy key field d !! k = d !! k.
Proof.
  intros Hne. unfold set_if_truthy. destruct field as [s|]; [|done].
  destruct (truthy (Some s)); [|done]. by rewrite lookup_insert_ne.
Qed.

Lemma set_if_truthy_dom key field d :
  dom (set_if_truthy key field d)
  = (if truthy field then {[key]} else ∅) ∪ dom d.
Proof.
  unfold set_if_truthy. destruct field as [s|]; simpl.
  - destruct (negb _); [by rewrite dom_insert_L|].
    by rewrite (left_id_L ∅ (∪)).
  - by rewrite (left_id_L ∅ (∪)).
Qed.

Lemma merge_ssl_absent c :
  tls_present c = false → merge_ssl c = (c, Ok tt).
Proof. unfold tls_present, merge_ssl. by intros ->. Qed.

Lemma merge_ssl_present c :
  tls_present c = true →
  ssl_entry_is_dict c = true →
  merge_ssl c
  = (set_connectionArguments c
       (<["ssl" := PyDict (merged_ssl c)]> (args_before c)), Ok tt).
Proof.
  unfold tls_present, ssl_entry_is_dict, merge_ssl, merged_ssl, ssl_before,
    dict_get.
  intros -> Hdict. rewrite py_or_init_empty. fold (args_before c).
  destruct (args_before c !! "ssl") as [[]|]; done.
Qed.

Lemma merge_ssl_not_dict c :
  tls_present c = true →
  ssl_entry_is_dict c = false →
  merge_ssl c = (set_connectionArguments c (args_before c), Raise TypeError).
Proof.
  unfold tls_present, ssl_entry_is_dict, merge_ssl, dict_get.
  intros -> Hdict. rewrite py_or_init_empty. fold (args_before c).
  destruct (args_before c !! "ssl") as [[]|]; done.
Qed.

Lemma set_if_truthy_union key field a d :
  set_if_truthy key field (a ∪ d) = set_if_truthy key field a ∪ d.
Proof.
  unfold set_if_truthy. destruct field as [s|]; [|done].
  destruct (truthy (Some s)); [|done]. by rewrite insert_union_l.
Qed.

(** The sub-map written back is the supplied one overridden by the entries
    of the TLS fields that are present. *)
Lemma merged_ssl_union c : merged_ssl c = tls_entries c ∪ ssl_before c.
Proof.
  unfold merged_ssl, tls_entries.
  rewrite <- !set_if_truthy_union. by rewrite (left_id_L ∅ (∪)).
Qed.

Lemma tls_entries_dom c : dom (tls_entries c) = present_tls_keys c.
Proof.
  unfold tls_entries, present_tls_keys.
  rewrite !set_if_truthy_dom, dom_empty_L.
  set_solver.
Qed.

Lemma merged_ssl_lookup_other c k :
  k ≠ "ssl_ca" → k ≠ "ssl_cert" → k ≠ "ssl_key" →
  merged_ssl c !! k = ssl_before c !! k.
Proof.
  intros. unfold merged_ssl. by rewrite !set_if_truthy_lookup_ne.
Qed.

Lemma merged_ssl_lookup_ca c :
  merged_ssl c !! "ssl_ca"
  = if truthy (caCertificate (ssl c)) then PyStr <$> caCertificate (ssl c)
    else ssl_before c !! "ssl_ca".
Proof.
  unfold merged_ssl.
  rewrite !set_if_truthy_lookup_ne by done. apply set_if_truthy_lookup.
Qed.

Lemma merged_ssl_lookup_cert c :
  merged_ssl c !! "ssl_cert"
  = if truthy (sslCertificate (ssl c)) then PyStr <$> sslCertificate (ssl c)
    else ssl_before c !! "ssl_cert".
Proof.
  unfold merged_ssl.
  rewrite set_if_truthy_lookup_ne by done. rewrite set_if_truthy_lookup.
  destruct (truthy (sslCertificate (ssl c))); [done|].
  by rewrite set_if_truthy_lookup_ne.
Qed.

Lemma merged_ssl_lookup_key c :
  merged_ssl c !! "ssl_key"
  = if truthy (sslKey (ssl c)) then PyStr <$> sslKey (ssl c)
    else ssl_before c !! "ssl_key".
Proof.
  unfold merged_ssl. rewrite set_if_truthy_lookup.
  destruct (truthy (sslKey (ssl c))); [done|].
  by rewrite !set_if_truthy_lookup_ne.
Qed.

Section GetConnectionFacts.

Context {Engine ConnectionURL ConnectionArgs : Type}.
Variable url_fn : DorisConnection -> ConnectionURL.
Variable args_fn : DorisConnection -> ConnectionArgs.
Variable create :
  DorisConnection ->
  (DorisConnection -> ConnectionURL) ->
  (DorisConnection -> ConnectionArgs) ->
  PyResult Engine.

Lemma get_connection_descriptor c :
  (get_connection url_fn args_fn create c).1 = (merge_ssl c).1.
Proof.
  unfold get_connection. by destruct (merge_ssl c) as [c' [[]|e]].
Qed.

Lemma get_connection_present c :
  tls_present c = true →
  ssl_entry_is_dict c = true →
  let c' :=
    set_connectionArguments c
      (<["ssl" := PyDict (merged_ssl c)]> (args_before c)) in
  get_connection url_fn args_fn create c = (c', create c' url_fn args_fn).
Proof.
  intros Htls Hdict. unfold get_connection.
  by rewrite merge_ssl_present.
Qed.

(** C3 (amended).  When at least one of caCertificate, sslCertificate and
    sslKey is non-empty and the connection arguments hold nothing under
    "ssl", or a dictionary, [get_connection] leaves the descriptor with a
    connection-arguments map:
    the supplied one, or an empty one when none (or an empty one) was
    supplied, with the "ssl" entry rewritten.  The sub-map written is the
    existing one (empty when absent) in which ssl_ca, ssl_cert and ssl_key
    are set for the fields that are present and left as they were for the
    fields that are not; every other key of the sub-map is unchanged.  The
    engine is then built by the generic builder from that descriptor with
    the common URL and argument functions. *)
Theorem get_connection_merges_tls c :
  tls_present c = true →
  ssl_entry_is_dict c = true →
  ∃ c' ssl_args,
    get_connection url_fn args_fn create c
    = (c', create c' url_fn args_fn)
    ∧ connectionArguments c'
      = Some (<["ssl" := PyDict ssl_args]> (args_before c))
    ∧ ssl_args !! "ssl_ca"
      = (if truthy (caCertificate (ssl c))
         then PyStr <$> caCertificate (ssl c)
         else ssl_before c !! "ssl_ca")
    ∧ ssl_args !! "ssl_cert"
      = (if truthy (sslCertificate (ssl c))
         then PyStr <$> sslCertificate (ssl c)
         else ssl_before c !! "ssl_cert")
    ∧ ssl_args !! "ssl_key"
      = (if truthy (sslKey (ssl c))
         then PyStr <$> sslKey (ssl c)
         else ssl_before c !! "ssl_key")
    ∧ (∀ k, k ≠ "ssl_ca" → k ≠ "ssl_cert" → k ≠ "ssl_key" →
         ssl_args !! k = ssl_before c !! k)
    ∧ ssl c' = ssl c ∧ username c' = username c ∧ hostPort c' = hostPort c.
Proof.
  intros Htls Hdict.
  eexists _, (merged_ssl c). split.
  { by apply get_connection_present. }
  split; [done|].
  split; [apply merged_ssl_lookup_ca|].
  split; [apply merged_ssl_lookup_cert|].
  split; [apply merged_ssl_lookup_key|].
  split; [apply merged_ssl_lookup_other|done].
Qed.

(** C4 (amended).  When at least one TLS field is present and the
    connection arguments hold nothing under "ssl", or a dictionary, the
    descriptor left by [get_connection] has a connection-arguments map whose
    "ssl" entry is a map holding the entries of the supplied "ssl" sub-map
    together with one entry per TLS field that is present: its keys are the
    supplied keys and the keys of the present fields, ssl_ca, ssl_cert and
    ssl_key are bound to caCertificate, sslCertificate and sslKey for the
    fields that are present, and every key that does not belong to a
    present field keeps what the supplied sub-map had for it.  When no "ssl"
    sub-map was supplied, or an empty one, the keys are exactly those of the
    present fields. *)
Theorem ssl_map_after_get_connection c :
  tls_present c = true →
  ssl_entry_is_dict c = true →
  ∃ args ssl_args,
    connectionArguments (get_connection url_fn args_fn create c).1
    = Some args
    ∧ args !! "ssl" = Some (PyDict ssl_args)
    ∧ dom ssl_args = present_tls_keys c ∪ dom (ssl_before c)
    ∧ (truthy (caCertificate (ssl c)) = true →
       ssl_args !! "ssl_ca" = PyStr <$> caCertificate (ssl c))
    ∧ (truthy (sslCertificate (ssl c)) = true →
       ssl_args !! "ssl_cert" = PyStr <$> sslCertificate (ssl c))
    ∧ (truthy (sslKey (ssl c)) = true →
       ssl_args !! "ssl_key" = PyStr <$> sslKey (ssl c))
    ∧ (∀ k, k ∉ present_tls_keys c → ssl_args !! k = ssl_before c !! k)
    ∧ (ssl_before c = ∅ → dom ssl_args = present_tls_keys c).
Proof.
  intros Htls Hdict.
  rewrite get_connection_descriptor, merge_ssl_present by done.
  eexists _, (merged_ssl c). split; [done|].
  split; [by rewrite lookup_insert_eq|].
  split; [by rewrite merged_ssl_union, dom_union_L, tls_entries_dom|].
  split; [intros Hca; by rewrite merged_ssl_lookup_ca, Hca|].
  split; [intros Hcert; by rewrite merged_ssl_lookup_cert, Hcert|].
  split; [intros Hkey; by rewrite merged_ssl_lookup_key, Hkey|].
  split.
  { intros k Hk. rewrite <- tls_entries_dom in Hk.
    apply not_elem_of_dom in Hk.
    rewrite merged_ssl_union. by apply lookup_union_r. }
  intros Hempty.
  rewrite merged_ssl_union, dom_union_L, tls_entries_dom, Hempty.
  by rewrite dom_empty_L, (right_id_L ∅ (∪)).
Qed.

(** C6.  When caCertificate, sslCertificate and sslKey are all absent or
    empty, [get_connection] leaves the descriptor exactly as supplied, the
    connection arguments included (an absent map stays absent), and hands
    that same descriptor to the generic builder. *)
Theorem get_connection_without_tls c :
  tls_present c = false →
  get_connection url_fn args_fn create c = (c, create c url_fn args_fn).
Proof.
  intros Htls. unfold get_connection. by rewrite merge_ssl_absent.
Qed.

(** C7 (amended).  When all three TLS fields are set and the connection
    arguments hold nothing under "ssl", or a dictionary, the "ssl" map left
    by [get_connection] binds
    ssl_ca, ssl_cert and ssl_key to caCertificate, sslCertificate and
    sslKey, and every key of the connection arguments other than "ssl" has
    the value it had in the supplied map. *)
Theorem get_connection_all_three c :
  truthy (caCertificate (ssl c)) = true →
  truthy (sslCertificate (ssl c)) = true →
  truthy (sslKey (ssl c)) = true →
  ssl_entry_is_dict c = true →
  ∃ args ssl_args,
    connectionArguments (get_connection url_fn args_fn create c).1
    = Some args
    ∧ args !! "ssl" = Some (PyDict ssl_args)
    ∧ ssl_args !! "ssl_ca" = PyStr <$> caCertificate (ssl c)
    ∧ ssl_args !! "ssl_cert" = PyStr <$> sslCertificate (ssl c)
    ∧ ssl_args !! "ssl_key" = PyStr <$> sslKey (ssl c)
    ∧ (∀ k, k ≠ "ssl" → args !! k = args_before c !! k).
Proof.
  intros Hca Hcert Hkey Hdict.
  assert (tls_present c = true) as Htls
    by (unfold tls_present; by rewrite Hca).
  rewrite get_connection_descriptor, merge_ssl_present by done.
  eexists _, (merged_ssl c). split; [done|].
  split; [by rewrite lookup_insert_eq|].
  split; [by rewrite merged_ssl_lookup_ca, Hca|].
  split; [by rewrite merged_ssl_lookup_cert, Hcert|].
  split; [by rewrite merged_ssl_lookup_key, Hkey|].
  intros k Hk. by rewrite lookup_insert_ne.
Qed.

End GetConnectionFacts.

(** The claim of C3 as it was stated fails on a descriptor whose connection
    arguments hold a flag, not a dictionary, under "ssl": with a CA
    certificate configured the assignment of ssl_ca raises TypeError, so no
    engine comes back from the builder and no sub-map is written under
    "ssl". *)
Lemma get_connection_ssl_flag_no_merge :
  ¬ (tls_present ssl_flag_not_a_dict = true →
     ∃ c' ssl_args,
       get_connection (Engine:=unit) (λ _, tt) (λ _, tt) (λ _ _ _, Ok tt)
         ssl_flag_not_a_dict
       = (c', Ok tt)
       ∧ connectionArguments c'
         = Some (<["ssl" := PyDict ssl_args]>
                   (args_before ssl_flag_not_a_dict))).
Proof.
  intros Hclaim. destruct (Hclaim eq_refl) as (c' & ssl_args & Hget & _).
  apply (f_equal snd) in Hget. vm_compute in Hget. discriminate.
Qed.

(** The claim of C7 as it was stated fails on a descriptor with all three
    TLS fields set whose connection arguments hold a string under "ssl":
    the assignment of ssl_ca raises TypeError and the entry under "ssl" is
    still that string, not a map with the three keys. *)
Lemma get_connection_all_three_ssl_required :
  ¬ (truthy (caCertificate (ssl all_three_ssl_required)) = true →
     truthy (sslCertificate (ssl all_three_ssl_required)) = true →
     truthy (sslKey (ssl all_three_ssl_required)) = true →
     ∃ args ssl_args,
       connectionArguments
         (get_connection (Engine:=unit) (λ _, tt) (λ _, tt) (λ _ _ _, Ok tt)
            all_three_ssl_required).1
       = Some args
       ∧ args !! "ssl" = Some (PyDict ssl_args)
       ∧ ssl_args !! "ssl_ca"
         = PyStr <$> caCertificate (ssl all_three_ssl_required)
       ∧ ssl_args !! "ssl_cert"
         = PyStr <$> sslCertificate (ssl all_three_ssl_required)
       ∧ ssl_args !! "ssl_key"
         = PyStr <$> sslKey (ssl all_three_ssl_required)).
Proof.
  intros Hclaim.
  destruct (Hclaim eq_refl eq_refl eq_refl)
    as (args & ssl_args & Hargs & Hssl & _).
  vm_compute in Hargs. injection Hargs as <-.
  vm_compute in Hssl. discriminate.
Qed.

(** On the descriptor with a flag under "ssl" the call leaves no "ssl"
    sub-map at all. *)
Example ssl_map_ssl_flag_not_a_dict :
  (get_connection (Engine:=unit) (λ _, tt) (λ _, tt) (λ _ _ _, Ok tt)
     ssl_flag_not_a_dict)
  = (ssl_flag_not_a_dict, Raise TypeError)
  ∧ ssl_map ssl_flag_not_a_dict = None.
Proof. split; reflexivity. Qed.

(** The claim of C4 as it was stated fails on a descriptor that already
    carries an "ssl" sub-map with a key of its own: with only a CA
    certificate configured, the "ssl" map left behind still holds
    check_hostname next to ssl_ca. *)
Lemma ssl_map_keeps_supplied_entries :
  ¬ (tls_present ca_over_existing_ssl = true →
     ∃ ssl_args,
       ssl_map
         (get_connection (Engine:=unit) (λ _, tt) (λ _, tt) (λ _ _ _, Ok tt)
            ca_over_existing_ssl).1
       = Some ssl_args
       ∧ ∀ k, is_Some (ssl_args !! k) →
              k ∈ present_tls_keys ca_over_existing_ssl).
Proof.
  intros Hclaim. destruct (Hclaim eq_refl) as (ssl_args & Hmap & Honly).
  vm_compute in Hmap. injection Hmap as <-.
  specialize (Honly "check_hostname" (ex_intro _ (PyBool false) eq_refl)).
  unfold present_tls_keys in Honly. simpl in Honly. set_solver.
Qed.

Lemma merged_ssl_again c :
  tls_entries c ∪ merged_ssl c = merged_ssl c.
Proof.
  rewrite merged_ssl_union, (assoc_L (∪)). by rewrite (idemp_L (∪)).
Qed.

(** C8.  Running the TLS merge on the descriptor it has just left gives the
    same descriptor and the same outcome again; in particular the "ssl" map
    after two runs is the "ssl" map after one. *)
Theorem merge_ssl_idempotent c :
  merge_ssl (merge_ssl c).1 = merge_ssl c
  ∧ ssl_map (merge_ssl (merge_ssl c).1).1 = ssl_map (merge_ssl c).1.
Proof.
  assert (merge_ssl (merge_ssl c).1 = merge_ssl c) as Hagain;
    [|by rewrite Hagain].
  destruct (tls_present c) eqn:Htls.
  - destruct (ssl_entry_is_dict c) eqn:Hdict.
    + rewrite (merge_ssl_present c) by done. simpl.
      set (c' := set_connectionArguments c _).
      assert (ssl_before c' = merged_ssl c) as Hbefore.
      { unfold ssl_before, c', args_before. simpl.
        by rewrite lookup_insert_eq. }
      rewrite (merge_ssl_present c').
      * rewrite merged_ssl_union, Hbefore.
        change (tls_entries c') with (tls_entries c).
        rewrite merged_ssl_again.
        unfold c', set_connectionArguments, args_before. simpl.
        by rewrite insert_insert_eq.
      * done.
      * unfold ssl_entry_is_dict, c', args_before. simpl.
        by rewrite lookup_insert_eq.
    + rewrite (merge_ssl_not_dict c) by done. simpl.
      set (c' := set_connectionArguments c _).
      by rewrite (merge_ssl_not_dict c').
  - rewrite (merge_ssl_absent c) by done. simpl.
    by apply merge_ssl_absent.
Qed.

(** *** The theorems at sample descriptors *)

Lemma get_connection_merges_tls_only_ca :
  ∃ c' ssl_args,
    get_connection hostPort args_before
      (λ c url _, Ok (url c)) only_ca
    = (c', Ok (hostPort c'))
    ∧ connectionArguments c'
      = Some (<["ssl" := PyDict ssl_args]> (args_before only_ca))
    ∧ ssl_args !! "ssl_ca" = Some (PyStr "/certs/ca.pem")
    ∧ ssl_args !! "ssl_cert" = None
    ∧ ssl_args !! "ssl_key" = None
    ∧ (∀ k, k ≠ "ssl_ca" → k ≠ "ssl_cert" → k ≠ "ssl_key" →
         ssl_args !! k = ssl_before only_ca !! k)
    ∧ ssl c' = ssl only_ca
    ∧ username c' = username only_ca
    ∧ hostPort c' = hostPort only_ca.
Proof.
  apply (get_connection_merges_tls hostPort args_before
           (λ c url _, Ok (url c)) only_ca); reflexivity.
Defined.

Lemma ssl_map_after_get_connection_existing_ssl :
  ∃ args ssl_args,
    connectionArguments
      (get_connection (Engine:=unit) (λ _, tt) (λ _, tt) (λ _ _ _, Ok tt)
         ca_over_existing_ssl).1
    = Some args
    ∧ args !! "ssl" = Some (PyDict ssl_args)
    ∧ dom ssl_args
      = present_tls_keys ca_over_existing_ssl
        ∪ dom (ssl_before ca_over_existing_ssl)
    ∧ (truthy (caCertificate (ssl ca_over_existing_ssl)) = true →
       ssl_args !! "ssl_ca"
       = PyStr <$> caCertificate (ssl ca_over_existing_ssl))
    ∧ (truthy (sslCertificate (ssl ca_over_existing_ssl)) = true →
       ssl_args !! "ssl_cert"
       = PyStr <$> sslCertificate (ssl ca_over_existing_ssl))
    ∧ (truthy (sslKey (ssl ca_over_existing_ssl)) = true →
       ssl_args !! "ssl_key"
       = PyStr <$> sslKey (ssl ca_over_existing_ssl))
    ∧ (∀ k, k ∉ present_tls_keys ca_over_existing_ssl →
         ssl_args !! k = ssl_before ca_over_existing_ssl !! k)
    ∧ (ssl_before ca_over_existing_ssl = ∅ →
       dom ssl_args = present_tls_keys ca_over_existing_ssl).
Proof.
  apply (ssl_map_after_get_connection (λ _, tt) (λ _, tt) (λ _ _ _, Ok tt)
           ca_over_existing_ssl); reflexivity.
Defined.

Lemma get_connection_without_tls_no_tls :
  get_connection (Engine:=unit) (λ _, tt) (λ _, tt) (λ _ _ _, Ok tt) no_tls
  = (no_tls, Ok tt).
Proof.
  apply (get_connection_without_tls (λ _, tt) (λ _, tt) (λ _ _ _, Ok tt)
           no_tls); reflexivity.
Defined.

Lemma get_connection_all_three_sample :
  ∃ args ssl_args,
    connectionArguments
      (get_connection (Engine:=unit) (λ _, tt) (λ _, tt) (λ _ _ _, Ok tt)
         all_three).1
    = Some args
    ∧ args !! "ssl" = Some (PyDict ssl_args)
    ∧ ssl_args !! "ssl_ca" = Some (PyStr "/certs/ca.pem")
    ∧ ssl_args !! "ssl_cert" = Some (PyStr "/certs/client.pem")
    ∧ ssl_args !! "ssl_key" = Some (PyStr "/certs/client.key")
    ∧ (∀ k, k ≠ "ssl" → args !! k = args_before all_three !! k).
Proof.
  apply (get_connection_all_three (λ _, tt) (λ _, tt) (λ _ _ _, Ok tt)
           all_three); reflexivity.
Defined.

(** ** Further properties of the merge *)

Lemma set_connectionArguments_same c m :
  connectionArguments c = Some m → set_connectionArguments c m = c.
Proof. destruct c; simpl; by intros ->. Qed.

Lemma ssl_entry_not_dict_supplied c :
  ssl_entry_is_dict c = false → connectionArguments c = Some (args_before c).
Proof.
  unfold ssl_entry_is_dict, args_before.
  destruct (connectionArguments c) as [m|]; [done|].
  by rewrite lookup_empty.
Qed.

Lemma merge_ssl_twice c : merge_ssl (merge_ssl c).1 = merge_ssl c.
Proof.
  destruct (tls_present c) eqn:Htls.
  - destruct (ssl_entry_is_dict c) eqn:Hdict.
    + rewrite (merge_ssl_present c) by done. simpl.
      set (c' := set_connectionArguments c _).
      assert (ssl_before c' = merged_ssl c) as Hbefore.
      { unfold ssl_before, c', args_before. simpl.
        by rewrite lookup_insert_eq. }
      rewrite (merge_ssl_present c').
      * rewrite merged_ssl_union, Hbefore.
        change (tls_entries c') with (tls_entries c).
        rewrite merged_ssl_again.
        unfold c', set_connectionArguments, args_before. simpl.
        by rewrite insert_insert_eq.
      * done.
      * unfold ssl_entry_is_dict, c', args_before. simpl.
        by rewrite lookup_insert_eq.
    + rewrite (merge_ssl_not_dict c) by done. simpl.
      set (c' := set_connectionArguments c _).
      by rewrite (merge_ssl_not_dict c').
  - rewrite (merge_ssl_absent c) by done. simpl.
    by apply merge_ssl_absent.
Qed.

Lemma truthy_drop_empty field : truthy (drop_empty field) = truthy field.
Proof. unfold drop_empty. by destruct (truthy field) eqn:?. Qed.

Lemma set_if_truthy_drop_empty key field d :
  set_if_truthy key (drop_empty field) d = set_if_truthy key field d.
Proof.
  unfold drop_empty. destruct (truthy field) eqn:Hfield; [done|].
  unfold set_if_truthy. simpl. destruct field as [s|]; [|done].
  by rewrite Hfield.
Qed.

(** X2.  An empty-string TLS field counts for nothing: the merge leaves the
    same connection arguments, with the same outcome, as on the descriptor
    in which every empty-string TLS field is absent. *)
Theorem merge_ssl_empty_fields_absent c :
  connectionArguments (merge_ssl c).1
  = connectionArguments (merge_ssl (without_empty_fields c)).1
  ∧ (merge_ssl c).2 = (merge_ssl (without_empty_fields c)).2.
Proof.
  unfold merge_ssl, without_empty_fields.
  cbn [ssl caCertificate sslCertificate sslKey connectionArguments].
  rewrite !truthy_drop_empty.
  destruct (_ || _); [|done].
  destruct (dict_get _ _ _); [done..|].
  by rewrite !set_if_truthy_drop_empty.
Qed.

Section GetConnectionMore.

Context {Engine ConnectionURL ConnectionArgs : Type}.
Variable url_fn : DorisConnection -> ConnectionURL.
Variable args_fn : DorisConnection -> ConnectionArgs.
Variable create :
  DorisConnection ->
  (DorisConnection -> ConnectionURL) ->
  (DorisConnection -> ConnectionArgs) ->
  PyResult Engine.

(** X1.  When a TLS field is present and the entry under "ssl" is not a
    dictionary, [get_connection] raises TypeError whatever the generic
    builder would have answered, and the descriptor is left exactly as it
    was supplied. *)
Theorem get_connection_ssl_not_dict c :
  tls_present c = true →
  ssl_entry_is_dict c = false →
  get_connection url_fn args_fn create c = (c, Raise TypeError).
Proof.
  intros Htls Hdict. unfold get_connection.
  rewrite merge_ssl_not_dict by done.
  by rewrite set_connectionArguments_same
    by by apply ssl_entry_not_dict_supplied.
Qed.

(** X3.  Unless a TLS field is present while the entry under "ssl" is not
    a dictionary, [get_connection] fails only when the generic builder does:
    its outcome is the builder's outcome on the descriptor as it is left. *)
Theorem get_connection_outcome c :
  tls_present c = false ∨ ssl_entry_is_dict c = true →
  (get_connection url_fn args_fn create c).2
  = create (get_connection url_fn args_fn create c).1 url_fn args_fn.
Proof.
  intros Hcase. destruct (tls_present c) eqn:Htls.
  - destruct Hcase as [|Hdict]; [done|].
    by rewrite get_connection_present.
  - unfold get_connection. by rewrite merge_ssl_absent.
Qed.

(** X4.  Calling [get_connection] again on the descriptor it has left
    leaves the same descriptor and gives the same outcome: the builder is
    asked for an engine for the same descriptor both times. *)
Theorem get_connection_again c :
  get_connection url_fn args_fn create
    (get_connection url_fn args_fn create c).1
  = get_connection url_fn args_fn create c.
Proof.
  rewrite get_connection_descriptor.
  unfold get_connection. by rewrite merge_ssl_twice.
Qed.


(** X6.  With a TLS field present, an empty map of connection arguments is
    treated as no map at all: [get_connection] leaves the same descriptor
    and gives the same outcome as on the descriptor without arguments. *)
Theorem get_connection_empty_arguments c :
  tls_present c = true →
  connectionArguments c = Some ∅ →
  get_connection url_fn args_fn create c
  = get_connection url_fn args_fn create (without_arguments c).
Proof.
  intros Htls Hargs.
  assert (merge_ssl c = merge_ssl (without_arguments c)) as Hmerge.
  { unfold merge_ssl, without_arguments, tls_present in *. simpl.
    by rewrite Htls, Hargs. }
  unfold get_connection. by rewrite Hmerge.
Qed.

End GetConnectionMore.

Lemma get_connection_ssl_not_dict_sample :
  get_connection (Engine:=unit) (λ _, tt) (λ _, tt) (λ _ _ _, Ok tt)
    ssl_flag_not_a_dict
  = (ssl_flag_not_a_dict, Raise TypeError).
Proof.
  apply (get_connection_ssl_not_dict (λ _, tt) (λ _, tt) (λ _ _ _, Ok tt)
           ssl_flag_not_a_dict); reflexivity.
Defined.

Lemma get_connection_outcome_failing_builder :
  (get_connection (Engine:=unit) (λ _, tt) (λ _, tt)
     (λ _ _ _, Raise (OtherError "ArgumentError")) all_three).2
  = Raise (OtherError "ArgumentError").
Proof.
  apply (get_connection_outcome (λ _, tt) (λ _, tt)
           (λ _ _ _, Raise (OtherError "ArgumentError")) all_three).
  right; reflexivity.
Defined.

Lemma get_connection_empty_arguments_sample :
  get_connection hostPort args_before (λ c url _, Ok (url c))
    cert_with_empty_arguments
  = get_connection hostPort args_before (λ c url _, Ok (url c))
      (without_arguments cert_with_empty_arguments).
Proof.
  apply (get_connection_empty_arguments hostPort args_before
           (λ c url _, Ok (url c)) cert_with_empty_arguments); reflexivity.
Defined.

End DorisFacts.

(** * Properties of the Trino sampler *)

Module TrinoFacts.
Import Trino.

(** ** The base query on the sample tables *)

Example base_sample_query_measurements :
  _base_sample_query "random" {["FLOAT"; "DOUBLE"]}
    {| table := measurements |} None (Some "random")
  = {| entity_of := TableEntity measurements;
       label_of := Some "random";
       _where_criteria :=
         [BooleanClauseList or_op
            [TextClause "is_nan(a) = False";
             TextClause "is_nan(b) = False"]] |}.
Proof. reflexivity. Qed.

Example base_sample_query_prices :
  _base_sample_query "random" {["FLOAT"; "DOUBLE"]}
    {| table := prices |} (Some {| name := "sku"; type := "VARCHAR" |}) None
  = {| entity_of := ColumnEntity {| name := "sku"; type := "VARCHAR" |};
       label_of := None;
       _where_criteria := [TextClause "is_nan(price) = False"] |}.
Proof. reflexivity. Qed.

Example base_sample_query_customers_no_where :
  has_where_clause
    (_base_sample_query "random" {["FLOAT"; "DOUBLE"]}
       {| table := customers |} None (Some "random")) = false
  ∧ has_where_clause
      (_base_sample_query "random" {["FLOAT"; "DOUBLE"]}
         {| table := measurements |} None (Some "random")) = true.
Proof. split; reflexivity. Qed.

Example row_passes_measurements :
  let q :=
    _base_sample_query "random" {["FLOAT"; "DOUBLE"]}
      {| table := measurements |} None (Some "random") in
  row_passes q (<["a" := NaN]> (<["b" := Finite 3]> ∅)) = true
  ∧ row_passes q (<["a" := NaN]> (<["b" := NaN]> ∅)) = false
  ∧ row_passes q (<["a" := Finite 1]> (<["b" := Finite 3]> ∅)) = true.
Proof. repeat split; reflexivity. Qed.

(** ** Reading the generated fragment back *)

Lemma strip_prefix_app p s : strip_prefix p (p ++ s) = Some s.
Proof.
  induction p as [|a p IH]; simpl; [done|].
  by rewrite Ascii.eqb_refl.
Qed.

Lemma strip_suffix_app p s : strip_suffix p (s ++ p) = Some s.
Proof.
  unfold strip_suffix. rewrite reverse_app, strip_prefix_app. simpl.
  by rewrite reverse_involutive.
Qed.

Lemma list_ascii_of_string_app s1 s2 :
  String.list_ascii_of_string (s1 +:+ s2)
  = String.list_ascii_of_string s1 ++ String.list_ascii_of_string s2.
Proof. induction s1 as [|a s1 IH]; simpl; [done|]. by rewrite IH. Qed.

Lemma column_of_is_nan_false_correct column_name :
  column_of_is_nan_false (is_nan_false column_name) = Some column_name.
Proof.
  unfold column_of_is_nan_false, is_nan_false.
  rewrite list_ascii_of_string_app, strip_prefix_app.
  rewrite list_ascii_of_string_app, strip_suffix_app. simpl.
  by rewrite String.string_of_list_ascii_of_string.
Qed.

Lemma is_nan_false_inj x y : is_nan_false x = is_nan_false y → x = y.
Proof.
  intros Heq. apply (f_equal column_of_is_nan_false) in Heq.
  rewrite !column_of_is_nan_false_correct in Heq. congruence.
Qed.

Lemma is_nan_false_nonempty column_name : is_nan_false column_name ≠ "".
Proof. done. Qed.

Lemma eval_text_is_nan_false row column_name :
  eval_text row (is_nan_false column_name)
  = match row !! column_name with
    | Some (Finite _) => true
    | _ => false
    end.
Proof.
  unfold eval_text. rewrite column_of_is_nan_false_correct.
  by destruct (row !! column_name) as [[]|].
Qed.


Lemma eval_clause_or_pair row x y :
  eval_clause row
    (BooleanClauseList or_op [text (is_nan_false x); text (is_nan_false y)])
  = Some (eval_text row (is_nan_false x) || eval_text row (is_nan_false y)).
Proof. done. Qed.

(** ** The shape of the base query *)

Section SamplerFacts.

Variable RANDOM_LABEL : string.
Variable FLOAT_SET : gset SqlType.

Lemma sqa_float_columns t :
  filter (λ cols, type cols ∈ FLOAT_SET)
    (filter (λ col, name col ≠ RANDOM_LABEL) (columns t))
  = float_columns RANDOM_LABEL FLOAT_SET t.
Proof.
  unfold float_columns. rewrite list_filter_filter.
  apply list_filter_iff. naive_solver.
Qed.

Lemma base_sample_query_unfold self column label :
  _base_sample_query RANDOM_LABEL FLOAT_SET self column label
  = Query_where
      (Session_query
         (match column with
          | None => TableEntity (table self)
          | Some col => ColumnEntity col
          end) label)
      (or_ (nan_clauses (float_columns RANDOM_LABEL FLOAT_SET (table self)))).
Proof.
  unfold _base_sample_query, nan_clauses. by rewrite sqa_float_columns.
Qed.

Lemma flat_map_clause_texts cols :
  flat_map clause_texts (nan_clauses cols)
  = (λ col, is_nan_false (name col)) <$> cols.
Proof.
  induction cols as [|col cols IH]; [done|].
  cbn [nan_clauses fmap list_fmap flat_map clause_texts text app].
  f_equal. apply IH.
Qed.

Lemma clause_texts_or_ cols :
  clause_texts (or_ (nan_clauses cols))
  = (λ col, is_nan_false (name col)) <$> cols.
Proof.
  destruct cols as [|col1 [|col2 cols]]; [done..|].
  unfold or_. cbn [nan_clauses fmap list_fmap clause_texts].
  apply (flat_map_clause_texts (col1 :: col2 :: cols)).
Qed.

Lemma query_texts_base_sample_query self column label :
  query_texts (_base_sample_query RANDOM_LABEL FLOAT_SET self column label)
  = (λ col, is_nan_false (name col))
      <$> float_columns RANDOM_LABEL FLOAT_SET (table self).
Proof.
  rewrite base_sample_query_unfold. unfold query_texts. simpl.
  by rewrite clause_texts_or_, app_nil_r.
Qed.

Lemma float_columns_nil t :
  (∀ col, col ∈ columns t → name col ≠ RANDOM_LABEL →
          type col ∉ FLOAT_SET) →
  float_columns RANDOM_LABEL FLOAT_SET t = [].
Proof.
  unfold float_columns. generalize (columns t) as cols.
  induction cols as [|col cols IH]; [done|].
  intros Hnone. rewrite filter_cons_False.
  - apply IH. intros col' Hin. apply Hnone. by right.
  - intros [Hname Htype]. by apply (Hnone col); [left|..].
Qed.

Lemma filter_random_label cols :
  Forall (λ col, name col = RANDOM_LABEL) cols →
  filter (λ col, name col ≠ RANDOM_LABEL ∧ type col ∈ FLOAT_SET) cols = [].
Proof.
  induction 1 as [|col cols Hcol _ IH]; [done|].
  rewrite filter_cons_False; [done|]. by intros [? _].
Qed.

Lemma float_columns_two t pre mid post a b :
  columns t = pre ++ a :: mid ++ b :: post →
  Forall (λ col, name col = RANDOM_LABEL) pre →
  Forall (λ col, name col = RANDOM_LABEL) mid →
  Forall (λ col, name col = RANDOM_LABEL) post →
  name a ≠ RANDOM_LABEL → type a ∈ FLOAT_SET →
  name b ≠ RANDOM_LABEL → type b ∈ FLOAT_SET →
  float_columns RANDOM_LABEL FLOAT_SET t = [a; b].
Proof.
  intros Hcols Hpre Hmid Hpost Ha Hta Hb Htb. unfold float_columns.
  rewrite Hcols, filter_app, filter_cons_True by done.
  rewrite filter_app, filter_cons_True by done.
  by rewrite !filter_random_label.
Qed.

(** C1.  When no column of the table other than the random-label column
    has a type in FLOAT_SET, the query returned by [_base_sample_query] is
    the projection query with no NaN predicate attached: its only
    criterion is a disjunction without members, which generates nothing,
    so the statement has no WHERE clause and keeps every row. *)
Theorem base_sample_query_without_float_columns self column label :
  (∀ col, col ∈ columns (table self) → name col ≠ RANDOM_LABEL →
          type col ∉ FLOAT_SET) →
  _base_sample_query RANDOM_LABEL FLOAT_SET self column label
  = Query_where
      (Session_query
         (match column with
          | None => TableEntity (table self)
          | Some col => ColumnEntity col
          end) label)
      (BooleanClauseList or_op [])
  ∧ query_texts
      (_base_sample_query RANDOM_LABEL FLOAT_SET self column label) = []
  ∧ has_where_clause
      (_base_sample_query RANDOM_LABEL FLOAT_SET self column label) = false
  ∧ ∀ row,
      row_passes
        (_base_sample_query RANDOM_LABEL FLOAT_SET self column label) row
      = true.
Proof.
  intros Hnone. rewrite base_sample_query_unfold.
  by rewrite float_columns_nil.
Qed.

(** C2.  For a table whose columns are two float-typed columns a and b
    and, anywhere among them, random-label columns of whatever type, the
    criterion built by [_base_sample_query] is the disjunction of exactly
    is_nan(a) = False and is_nan(b) = False; the random-label column is
    not mentioned.  A row whose a is NaN and whose b is a number passes; a
    row whose a and b are both NaN does not. *)
Theorem base_sample_query_two_float_columns self column label
    pre mid post a b :
  columns (table self) = pre ++ a :: mid ++ b :: post →
  Forall (λ col, name col = RANDOM_LABEL) pre →
  Forall (λ col, name col = RANDOM_LABEL) mid →
  Forall (λ col, name col = RANDOM_LABEL) post →
  name a ≠ RANDOM_LABEL → type a ∈ FLOAT_SET →
  name b ≠ RANDOM_LABEL → type b ∈ FLOAT_SET →
  _where_criteria
    (_base_sample_query RANDOM_LABEL FLOAT_SET self column label)
  = [BooleanClauseList or_op
       [TextClause (is_nan_false (name a));
        TextClause (is_nan_false (name b))]]
  ∧ (is_nan_false RANDOM_LABEL
     ∉ query_texts
         (_base_sample_query RANDOM_LABEL FLOAT_SET self column label))
  ∧ (∀ row x,
       row !! name a = Some NaN → row !! name b = Some (Finite x) →
       row_passes
         (_base_sample_query RANDOM_LABEL FLOAT_SET self column label) row
       = true)
  ∧ (∀ row,
       row !! name a = Some NaN → row !! name b = Some NaN →
       row_passes
         (_base_sample_query RANDOM_LABEL FLOAT_SET self column label) row
       = false).
Proof.
  intros Hcols Hpre Hmid Hpost Ha Hta Hb Htb.
  rewrite query_texts_base_sample_query, base_sample_query_unfold.
  rewrite (float_columns_two _ pre mid post a b) by done.
  split; [done|]. split.
  { intros Hin. apply elem_of_cons in Hin as [Heq|Hin].
    - by apply is_nan_false_inj in Heq.
    - apply list_elem_of_singleton in Hin. by apply is_nan_false_inj in Hin. }
  unfold row_passes, Query_where, or_. cbn [_where_criteria Session_query
    nan_clauses fmap list_fmap app forallb].
  split.
  - intros row x Hrowa Hrowb.
    by rewrite eval_clause_or_pair, !eval_text_is_nan_false, Hrowa, Hrowb.
  - intros row Hrowa Hrowb.
    by rewrite eval_clause_or_pair, !eval_text_is_nan_false, Hrowa, Hrowb.
Qed.

(** C5.  With no column argument the query is over the whole table, with
    a column argument it projects that column; either way the label
    argument, given or not, is the label of the projection. *)
Theorem base_sample_query_entity self label :
  entity_of (_base_sample_query RANDOM_LABEL FLOAT_SET self None label)
  = TableEntity (table self)
  ∧ label_of (_base_sample_query RANDOM_LABEL FLOAT_SET self None label)
    = label
  ∧ ∀ col,
      entity_of
        (_base_sample_query RANDOM_LABEL FLOAT_SET self (Some col) label)
      = ColumnEntity col
      ∧ label_of
          (_base_sample_query RANDOM_LABEL FLOAT_SET self (Some col) label)
        = label.
Proof. done. Qed.

(** C10.  The criteria of the query do not depend on the column (or
    label) argument: whatever is projected, they are the same, and their
    predicates are is_nan(c) = False for the float-typed columns c of the
    table other than the random-label column, in declaration order. *)
Theorem base_sample_query_filter_independent_of_column self
    column1 label1 column2 label2 :
  _where_criteria
    (_base_sample_query RANDOM_LABEL FLOAT_SET self column1 label1)
  = _where_criteria
      (_base_sample_query RANDOM_LABEL FLOAT_SET self column2 label2)
  ∧ query_texts
      (_base_sample_query RANDOM_LABEL FLOAT_SET self column1 label1)
    = (λ col, is_nan_false (name col))
        <$> float_columns RANDOM_LABEL FLOAT_SET (table self).
Proof.
  split; [done|]. apply query_texts_base_sample_query.
Qed.

End SamplerFacts.

(** ** Construction *)

Section InitFacts.

Context {JsonDeserializer SamplerArgs Env : Type}.
Variable SQASampler__init__ :
  SamplerArgs → Process JsonDeserializer Env
  → TrinoSampler * Process JsonDeserializer Env.

(** The base initializer leaves the dialect's hook alone. *)
Hypothesis SQASampler__init__hook :
  ∀ args p,
    TrinoDialect_json_deserializer (SQASampler__init__ args p).2
    = TrinoDialect_json_deserializer p.

Lemma init_hook args p :
  TrinoDialect_json_deserializer
    (TrinoSampler__init__ SQASampler__init__ args p).2 = None.
Proof.
  unfold TrinoSampler__init__. by rewrite SQASampler__init__hook.
Qed.

Lemma construct_keeps_hook argss p :
  TrinoDialect_json_deserializer p = None →
  TrinoDialect_json_deserializer (construct_all SQASampler__init__ argss p)
  = None.
Proof.
  revert p. induction argss as [|args argss IH]; [done|].
  intros p _. simpl. apply IH, init_hook.
Qed.

(** C9.  Constructing a sampler sets the dialect's JSON deserializer to
    None and only then runs the base initializer, which therefore starts
    from a process in which the hook is disabled and nothing else has
    changed.  Assigning None a second time changes nothing, and, the base
    initializer leaving the hook alone, after any number of further
    constructions the hook is what it is after the first: None. *)
Theorem init_disables_json_deserializer args p :
  (∃ p0,
     TrinoDialect_json_deserializer p0 = None
     ∧ env p0 = env p
     ∧ TrinoSampler__init__ SQASampler__init__ args p
       = SQASampler__init__ args p0)
  ∧ set_json_deserializer None (set_json_deserializer None p)
    = set_json_deserializer None p
  ∧ ∀ argss,
      TrinoDialect_json_deserializer
        (construct_all SQASampler__init__ (args :: argss) p)
      = TrinoDialect_json_deserializer
          (TrinoSampler__init__ SQASampler__init__ args p).2
      ∧ TrinoDialect_json_deserializer
          (construct_all SQASampler__init__ (args :: argss) p)
        = None.
Proof.
  split; [by exists (set_json_deserializer None p)|].
  split; [done|].
  intros argss. rewrite init_hook. simpl.
  split; apply construct_keeps_hook, init_hook.
Qed.

End InitFacts.

(** ** The theorems at sample tables *)

Lemma base_sample_query_without_float_columns_customers :
  _base_sample_query "random" {["FLOAT"; "DOUBLE"]}
    {| table := customers |} None (Some "random")
  = Query_where
      (Session_query (TableEntity customers) (Some "random"))
      (BooleanClauseList or_op [])
  ∧ query_texts
      (_base_sample_query "random" {["FLOAT"; "DOUBLE"]}
         {| table := customers |} None (Some "random")) = []
  ∧ has_where_clause
      (_base_sample_query "random" {["FLOAT"; "DOUBLE"]}
         {| table := customers |} None (Some "random")) = false
  ∧ ∀ row,
      row_passes
        (_base_sample_query "random" {["FLOAT"; "DOUBLE"]}
           {| table := customers |} None (Some "random")) row = true.
Proof.
  apply (base_sample_query_without_float_columns "random"
           {["FLOAT"; "DOUBLE"]} {| table := customers |} None (Some "random")).
  intros col Hin Hname. apply list_elem_of_In in Hin. simpl in Hin.
  destruct Hin as [<-|[<-|[<-|[]]]]; simpl in *;
    [set_solver | set_solver | done].
Defined.

Lemma base_sample_query_two_float_columns_measurements :
  _where_criteria
    (_base_sample_query "random" {["FLOAT"; "DOUBLE"]}
       {| table := measurements |} None (Some "random"))
  = [BooleanClauseList or_op
       [TextClause "is_nan(a) = False"; TextClause "is_nan(b) = False"]]
  ∧ ("is_nan(random) = False"
     ∉ query_texts
         (_base_sample_query "random" {["FLOAT"; "DOUBLE"]}
            {| table := measurements |} None (Some "random")))
  ∧ (∀ row x,
       row !! "a" = Some NaN → row !! "b" = Some (Finite x) →
       row_passes
         (_base_sample_query "random" {["FLOAT"; "DOUBLE"]}
            {| table := measurements |} None (Some "random")) row = true)
  ∧ (∀ row,
       row !! "a" = Some NaN → row !! "b" = Some NaN →
       row_passes
         (_base_sample_query "random" {["FLOAT"; "DOUBLE"]}
            {| table := measurements |} None (Some "random")) row = false).
Proof.
  apply (base_sample_query_two_float_columns "random" {["FLOAT"; "DOUBLE"]}
           {| table := measurements |} None (Some "random")
           [] [ {| name := "random"; type := "FLOAT" |} ] []
           {| name := "a"; type := "FLOAT" |}
           {| name := "b"; type := "DOUBLE" |}).
  - reflexivity.
  - constructor.
  - by repeat constructor.
  - constructor.
  - done.
  - set_solver.
  - done.
  - set_solver.
Defined.

Lemma init_disables_json_deserializer_measurements :
  (∃ p0,
     TrinoDialect_json_deserializer p0 = None
     ∧ env p0 = env fresh_process
     ∧ TrinoSampler__init__ store_table measurements fresh_process
       = store_table measurements p0)
  ∧ set_json_deserializer None (set_json_deserializer None fresh_process)
    = set_json_deserializer None fresh_process
  ∧ ∀ argss,
      TrinoDialect_json_deserializer
        (construct_all store_table (measurements :: argss) fresh_process)
      = TrinoDialect_json_deserializer
          (TrinoSampler__init__ store_table measurements fresh_process).2
      ∧ TrinoDialect_json_deserializer
          (construct_all store_table (measurements :: argss)
             fresh_process) = None.
Proof.
  apply (init_disables_json_deserializer store_table); reflexivity.
Defined.

(** ** Further properties of the base query *)

Section SamplerMore.

Variable RANDOM_LABEL : string.
Variable FLOAT_SET : gset SqlType.




Lemma float_column_not_random_label t col :
  col ∈ float_columns RANDOM_LABEL FLOAT_SET t →
  name col ≠ RANDOM_LABEL ∧ type col ∈ FLOAT_SET ∧ col ∈ columns t.
Proof.
  unfold float_columns. rewrite list_elem_of_filter. naive_solver.
Qed.


(** X8.  Whatever the table, no predicate of the base query is about the
    random-label column. *)
Theorem base_sample_query_never_random_label self column label :
  is_nan_false RANDOM_LABEL
  ∉ query_texts (_base_sample_query RANDOM_LABEL FLOAT_SET self column label).
Proof.
  rewrite query_texts_base_sample_query.
  intros (col & Heq & Hin)%list_elem_of_fmap.
  apply is_nan_false_inj in Heq.
  by apply float_column_not_random_label in Hin as (? & _).
Qed.

(** X9.  The statement built from the base query has a WHERE clause exactly
    when the table has a float-typed column besides the random-label
    column. *)
Theorem base_sample_query_where_clause self column label :
  has_where_clause
    (_base_sample_query RANDOM_LABEL FLOAT_SET self column label) = true
  ↔ ∃ col,
      col ∈ columns (table self)
      ∧ name col ≠ RANDOM_LABEL
      ∧ type col ∈ FLOAT_SET.
Proof.
  rewrite base_sample_query_unfold.
  destruct (float_columns _ _ _) as [|col cols] eqn:Hcols.
  - split; [done|]. intros (col & Hin & Hname & Htype).
    assert (col ∈ float_columns RANDOM_LABEL FLOAT_SET (table self)) as Hcol
      by (unfold float_columns; by apply list_elem_of_filter).
    rewrite Hcols in Hcol. by apply elem_of_nil in Hcol.
  - split.
    + intros _. exists col.
      assert (col ∈ float_columns RANDOM_LABEL FLOAT_SET (table self)) as Hcol
        by (rewrite Hcols; left).
      apply float_column_not_random_label in Hcol. naive_solver.
    + intros _. by destruct cols.
Qed.

(** X10.  A column that is the random-label column, or whose type is not a
    float type, has no part in the filter: the table with such a column
    inserted anywhere gives the same criteria as the table without it. *)
Theorem base_sample_query_ignores_column self self' front back col
    column label column' label' :
  columns (table self) = front ++ back →
  columns (table self') = front ++ col :: back →
  name col = RANDOM_LABEL ∨ type col ∉ FLOAT_SET →
  _where_criteria
    (_base_sample_query RANDOM_LABEL FLOAT_SET self' column' label')
  = _where_criteria
      (_base_sample_query RANDOM_LABEL FLOAT_SET self column label).
Proof.
  intros Hcols Hcols' Hcol. rewrite !base_sample_query_unfold.
  assert (float_columns RANDOM_LABEL FLOAT_SET (table self')
          = float_columns RANDOM_LABEL FLOAT_SET (table self)) as ->; [|done].
  unfold float_columns. rewrite Hcols, Hcols', !filter_app.
  rewrite filter_cons_False; [done|]. naive_solver.
Qed.


(** X12.  When the float-typed columns of the table have distinct names, the
    predicates of the base query are pairwise distinct. *)
Theorem base_sample_query_distinct_predicates self column label :
  NoDup (name <$> float_columns RANDOM_LABEL FLOAT_SET (table self)) →
  NoDup
    (query_texts
       (_base_sample_query RANDOM_LABEL FLOAT_SET self column label)).
Proof.
  intros Hnames. rewrite query_texts_base_sample_query.
  rewrite (list_fmap_compose name is_nan_false).
  apply NoDup_fmap_2; [|done].
  intros x y. apply is_nan_false_inj.
Qed.

End SamplerMore.

Lemma base_sample_query_ignores_column_measurements :
  _where_criteria
    (_base_sample_query "random" {["FLOAT"; "DOUBLE"]}
       {| table := measurements |} None (Some "random"))
  = _where_criteria
      (_base_sample_query "random" {["FLOAT"; "DOUBLE"]}
         {| table := measurements_plain |} None None).
Proof.
  apply (base_sample_query_ignores_column "random" {["FLOAT"; "DOUBLE"]}
           {| table := measurements_plain |} {| table := measurements |}
           [ {| name := "a"; type := "FLOAT" |} ]
           [ {| name := "b"; type := "DOUBLE" |} ]
           {| name := "random"; type := "FLOAT" |}).
  - reflexivity.
  - reflexivity.
  - left; reflexivity.
Defined.


Lemma base_sample_query_distinct_predicates_measurements :
  NoDup
    (query_texts
       (_base_sample_query "random" {["FLOAT"; "DOUBLE"]}
          {| table := measurements |} None (Some "random"))).
Proof.
  apply (base_sample_query_distinct_predicates "random" {["FLOAT"; "DOUBLE"]}
           {| table := measurements |} None (Some "random")).
  apply (bool_decide_unpack _). vm_compute. exact I.
Defined.

End TrinoFacts.
